(** * Button, Alert and AlertContent: a shallow embedding

    The three React Native components of the repository are embedded as
    functions from props and hook state to the element they render.

    - A JS object used as a bag of keys (a style literal, the props handed to
      the host modal) is a [gmap string _]; a key whose value is [undefined]
      is present in the map with the value [VUndefined].
    - A JS number is a rational ([Q]); [Math.floor] is [Qfloor].  NaN and the
      infinities are left out: layout events carry finite sizes.
    - [useState] is explicit state passing: a component takes the current
      state, an event handler maps the state to the next one.
    - [useMemo] and [useCallback] only cache; they are the identity here.
    - What a component imports from files that are not part of the sources
      (style tables, colour tables, hooks) is a Section variable. *)

From Stdlib Require Import ZArith QArith Qround String List.
From stdpp Require Import base option strings gmap.
Import ListNotations.

Set Warnings "-register-all,-clear-no-such-hyp".

Local Open Scope string_scope.
Local Open Scope Z_scope.

(** ** JavaScript values and styles *)

Module Js.

Inductive value : Type :=
| VUndefined
| VBool (b : bool)
| VString (s : string)
| VNumber (q : Q)
| VObject (fields : list (string * value)).

(** [StyleProp<T>]: a style object, [undefined], or an array of these. *)
Inductive StyleProp : Type :=
| SUndefined
| SStyle (s : gmap string value)
| SArray (items : list StyleProp).

(** [evt.nativeEvent.layout] of a [LayoutChangeEvent]. *)
Record LayoutChangeEvent : Type := {
  layout_height : Q;
  layout_width : Q
}.

(** [a ?? b] on a value that may be unset. *)
Definition nullish {A : Type} (a b : option A) : option A :=
  match a with
  | Some x => Some x
  | None => b
  end.

Definition ofString (c : option string) : value :=
  match c with
  | Some s => VString s
  | None => VUndefined
  end.

Definition ofNumber (n : option Q) : value :=
  match n with
  | Some q => VNumber q
  | None => VUndefined
  end.

(** [o.k]: reading a key an object does not have gives [undefined]. *)
Definition get (o : gmap string value) (k : string) : value :=
  match o !! k with
  | Some v => v
  | None => VUndefined
  end.

(** [{...base, ...extra}]: the keys of [extra] replace those of [base]. *)
Definition spread {V : Type} (base extra : gmap string V) : gmap string V :=
  extra ∪ base.

(** JS truthiness of an optional string: [undefined] and [''] are falsy. *)
Definition truthyString (s : option string) : bool :=
  match s with
  | Some s' => negb (String.eqb s' EmptyString)
  | None => false
  end.

End Js.

Import Js.

(** ** alert-content.tsx *)

Module AlertContent.
Section AlertContent.

(** From outside the file: the caller's children, the forwarded ref, the
    spacing scale of theme/spacing and the colour [useTheme] returns. *)
Variable Node : Type.
Variable Ref : Type.
Variable spacing : nat -> Q.
Variable secondaryBackground : string.

Record AlertContentProps : Type := {
  style : StyleProp;
  children : Node
}.

(** The state cell of [useState(0)]. *)
Definition initialContentHeight : Q := 0%Q.

(** A layout handler computes the next value of the state cell. *)
Definition LayoutHandler : Type := LayoutChangeEvent -> Q -> Q.

Inductive Element : Type :=
| View (ref : Ref) (accessibilityRole : string) (onLayout : LayoutHandler)
       (style : StyleProp) (children : Node)
| ScrollView (ref : Ref) (accessibilityRole : string) (style : StyleProp)
             (contentContainerStyle : StyleProp) (children : Node).

Definition styles_container : gmap string value :=
  {[ "borderRadius" := VNumber (spacing 5);
     "shadowColor" := VString "#000";
     "shadowOffset" := VObject [("width", VNumber 0%Q); ("height", VNumber 2%Q)];
     "shadowOpacity" := VNumber (1 # 4)%Q;
     "shadowRadius" := VNumber (96 # 25)%Q;
     "elevation" := VNumber 5%Q ]}.

Definition styles_content : gmap string value :=
  {[ "width" := VString "100%";
     "alignItems" := VString "center";
     "paddingHorizontal" := VNumber (spacing 5);
     "paddingVertical" := VNumber (spacing 6) ]}.

(** [setContentHeight(evt.nativeEvent.layout.height)] *)
Definition onLayout : LayoutHandler :=
  fun evt _ => layout_height evt.

Definition AlertContent (props : AlertContentProps) (ref : Ref)
    (contentHeight : Q) : Element :=
  if Qeq_bool contentHeight 0%Q then
    View ref "alert" onLayout
      (SArray [SStyle styles_container;
               SStyle {[ "backgroundColor" := VString secondaryBackground ]};
               SStyle styles_content;
               style props])
      (children props)
  else
    ScrollView ref "alert"
      (SArray [SStyle styles_container;
               SStyle {[ "backgroundColor" := VString secondaryBackground ]};
               SStyle {[ "maxHeight" := VNumber contentHeight ]}])
      (SArray [SStyle styles_content; style props])
      (children props).

(** The host delivers a layout event to the [onLayout] handler of the element
    that is mounted; the [ScrollView] is given none. *)
Definition deliver (props : AlertContentProps) (ref : Ref)
    (evt : LayoutChangeEvent) (contentHeight : Q) : Q :=
  match AlertContent props ref contentHeight with
  | View _ _ handler _ _ => handler evt contentHeight
  | ScrollView _ _ _ _ _ => contentHeight
  end.

(** One mount: the layout events in the order they arrive, each with the
    props of the render it arrives at. *)
Fixpoint run (ref : Ref) (evts : list (AlertContentProps * LayoutChangeEvent))
    (contentHeight : Q) : Q :=
  match evts with
  | [] => contentHeight
  | (props, evt) :: rest => run ref rest (deliver props ref evt contentHeight)
  end.

(** The first height among the events that is not zero. *)
Fixpoint firstMeasured (evts : list (AlertContentProps * LayoutChangeEvent))
    : option Q :=
  match evts with
  | [] => None
  | (_, evt) :: rest =>
      if Qeq_bool (layout_height evt) 0%Q then firstMeasured rest
      else Some (layout_height evt)
  end.

End AlertContent.

Arguments View {Node Ref}.
Arguments ScrollView {Node Ref}.
Arguments style {Node}.
Arguments children {Node}.
Arguments AlertContent {Node Ref}.
Arguments deliver {Node Ref}.
Arguments run {Node Ref}.
Arguments firstMeasured {Node}.

(** Two mounts that measure the same heights: one narrow and unstyled, one
    wide with a style of the caller's. *)
Definition narrowMount : list (AlertContentProps unit * LayoutChangeEvent) :=
  [({| style := SUndefined; children := tt |},
    {| layout_height := 0%Q; layout_width := 120%Q |});
   ({| style := SUndefined; children := tt |},
    {| layout_height := (321 # 2)%Q; layout_width := 120%Q |})].

Definition wideMount : list (AlertContentProps unit * LayoutChangeEvent) :=
  [({| style := SStyle {[ "margin" := VNumber 8%Q ]}; children := tt |},
    {| layout_height := 0%Q; layout_width := 300%Q |});
   ({| style := SStyle {[ "margin" := VNumber 8%Q ]}; children := tt |},
    {| layout_height := (321 # 2)%Q; layout_width := 640%Q |})].

End AlertContent.

(** ** alert.tsx *)

Module Alert.
Section Alert.

(** [World] is whatever the caller's callbacks act on; [Node] the caller's
    children. *)
Variable World : Type.
Variable Node : Type.

Definition Callback : Type := World -> World.

(** A value of a host-modal prop. *)
Inductive PropValue : Type :=
| PUndefined
| PBool (b : bool)
| PString (s : string)
| PCallback (f : Callback).

(** [AlertProps = ModalProps & {visible, onChange?, dismissable?, isLoading?,
    children}]: the five keys the component names, and [others], every other
    key of the props object. *)
Record AlertProps : Type := {
  visible : bool;
  onChange : option (bool -> Callback);
  children : Node;
  dismissable : option bool;
  isLoading : option bool;
  others : gmap string PropValue
}.

Definition destructured : list string :=
  ["visible"; "onChange"; "children"; "dismissable"; "isLoading"].

(** [{ visible, onChange, children, dismissable, isLoading, ...modalProps }]:
    the rest pattern leaves out the keys that are named. *)
Definition modalProps (props : AlertProps) : gmap string PropValue :=
  foldr delete (others props) destructured.

Record AlertContext : Type := {
  dismiss : Callback
}.

Inductive Element : Type :=
| LoadingIndicatorOverlay
| AlertContainer (visible : bool) (children : list Element)
| AlertBackdrop (dismissable : option bool)
| Children (node : Node).

Record ModalElement : Type := {
  modal_props : gmap string PropValue;
  modal_children : Element
}.

Record ProviderElement : Type := {
  provider_value : AlertContext;
  provider_children : ModalElement
}.

(** [onChange?.(v)] *)
Definition callOnChange (onChange : option (bool -> Callback)) (v : bool)
    : Callback :=
  match onChange with
  | Some f => f v
  | None => fun w => w
  end.

Definition Alert (props : AlertProps) : ProviderElement :=
  let onShow : Callback := callOnChange (onChange props) true in
  let onHide : Callback := callOnChange (onChange props) false in
  let providerValue := {| dismiss := onHide |} in
  {| provider_value := providerValue;
     provider_children :=
       {| modal_props :=
            spread
              {[ "presentationStyle" := PString "overFullScreen";
                 "transparent" := PBool true;
                 "visible" :=
                   PBool (visible props || bool_decide (isLoading props = Some true));
                 "onRequestClose" := PCallback onHide;
                 "onShow" := PCallback onShow;
                 "onDismiss" := PCallback onHide ]}
              (modalProps props);
          modal_children :=
            match isLoading props with
            | Some true => LoadingIndicatorOverlay
            | _ =>
                AlertContainer (visible props)
                  [AlertBackdrop (dismissable props); Children (children props)]
            end |} |}.

(** The host modal, as far as the component relies on it: it is on screen
    when its [visible] prop is [true], and it calls the callback found under
    the event's prop name, if there is one. *)
Definition shown (m : ModalElement) : bool :=
  match modal_props m !! "visible" with
  | Some (PBool true) => true
  | _ => false
  end.

Definition hostEvent (name : string) (m : ModalElement) : Callback :=
  match modal_props m !! name with
  | Some (PCallback f) => f
  | _ => fun w => w
  end.

End Alert.

Arguments PUndefined {World}.
Arguments PBool {World}.
Arguments PString {World}.
Arguments LoadingIndicatorOverlay {Node}.
Arguments AlertContainer {Node}.
Arguments AlertBackdrop {Node}.
Arguments Children {Node}.
Arguments visible {World Node}.
Arguments onChange {World Node}.
Arguments children {World Node}.
Arguments dismissable {World Node}.
Arguments isLoading {World Node}.
Arguments others {World Node}.
Arguments modalProps {World Node}.
Arguments dismiss {World}.
Arguments modal_props {World Node}.
Arguments modal_children {World Node}.
Arguments provider_value {World Node}.
Arguments provider_children {World Node}.
Arguments callOnChange {World}.
Arguments Alert {World Node}.
Arguments shown {World Node}.
Arguments hostEvent {World Node}.

(** The keys Alert sets on the modal itself and a caller can also pass. *)
Definition passthroughKeys : list string :=
  ["onRequestClose"; "onShow"; "onDismiss"; "transparent"; "presentationStyle"].

(** A caller whose world is the log of the values [onChange] was called
    with, most recent first. *)
Definition logChange : bool -> Callback (list bool) :=
  fun v log => v :: log.

Definition plainProps : AlertProps (list bool) unit :=
  {| visible := true;
     onChange := Some logChange;
     children := tt;
     dismissable := None;
     isLoading := None;
     others := ∅ |}.

(** The same, with an [onRequestClose] of the caller's own that does
    nothing. *)
Definition overridingProps : AlertProps (list bool) unit :=
  {| visible := true;
     onChange := Some logChange;
     children := tt;
     dismissable := None;
     isLoading := None;
     others :=
       {[ "onRequestClose" := PCallback (list bool) (fun log => log) ]} |}.


(** A caller that passes [animationType] and no [onChange]. *)
Definition animatedProps : AlertProps (list bool) unit :=
  {| visible := false;
     onChange := None;
     children := tt;
     dismissable := Some true;
     isLoading := Some false;
     others := {[ "animationType" := PString "slide" ]} |}.

End Alert.

(** ** button.tsx *)

Module Button.

(** Modelled from the spec: theme/types.ts, which declares [ButtonColors], is
    not among the sources.  The record has "named color fields per
    interaction state (default/pressed/disabled) for container background,
    border, shadow, text, plus opacity values"; the fields are the ones
    button.tsx reads, and each of them may be unset. *)
Record ButtonColors : Type := {
  containerBackground : option string;
  containerBackgroundDisabled : option string;
  containerBackgroundPressed : option string;
  containerBorder : option string;
  containerBorderDisabled : option string;
  containerBorderPressed : option string;
  opacity : option Q;
  opacityDisabled : option Q;
  opacityPressed : option Q;
  shadow : option string;
  shadowDisabled : option string;
  shadowPressed : option string;
  text : option string;
  disabledText : option string;
  pressedText : option string
}.

(** [ButtonVariant], [ButtonModifier] and [ButtonWidthOption] are unions of
    string literals; at run time they are strings. *)
Definition ButtonVariant : Type := string.
Definition ButtonModifier : Type := string.
Definition ButtonWidthOption : Type := string.

(** The entries of the tables of ./button-style. *)
Record ModifierStyle : Type := {
  size : gmap string value;
  modifier_text : gmap string value
}.

Record WidthOptionStyle : Type := {
  width : gmap string value
}.

Record BaseButtonStyle : Type := {
  buttonContainer : gmap string value;
  pressed_style : gmap string value;
  buttonContainerInner : gmap string value;
  buttonIconDisabled : gmap string value
}.

(** Modelled from the spec: ./button-style, which exports [noShadow], is not
    among the sources.  It is the "no shadow" sentinel: "the shadow bundle
    height/width collapse to zero and background is transparent". *)
Definition noShadow : gmap string value :=
  {[ "height" := VNumber 0%Q;
     "width" := VNumber 0%Q;
     "backgroundColor" := VString "transparent" ]}.

Record PressableStateCallbackType : Type := {
  pressed : bool
}.

(** The two [useState] cells of the component. *)
Record ButtonState : Type := {
  buttonContainerHeight : option Z;
  buttonContainerWidth : option Z
}.

Definition initialState : ButtonState :=
  {| buttonContainerHeight := None; buttonContainerWidth := None |}.

Definition LayoutHandler : Type := LayoutChangeEvent -> ButtonState -> ButtonState.

(** A [height] or [width] cell as the value of a style key. *)
Definition ofDimension (d : option Z) : value :=
  match d with
  | Some z => VNumber (inject_Z z)
  | None => VUndefined
  end.

Inductive Element : Type :=
| View (style : StyleProp) (onLayout : option LayoutHandler)
       (children : list Element)
| Text (testID : string) (style : StyleProp) (content : string)
| SvgImage (type : string) (width height : Z) (style : StyleProp)
| Fragment (children : list Element)
| Falsy (v : value).

(** The sizes handed to the icon renderer, over a whole element tree. *)
Fixpoint svgImageSizes (e : Element) : list (Z * Z) :=
  match e with
  | View _ _ cs =>
      (fix over (l : list Element) : list (Z * Z) :=
         match l with
         | [] => []
         | c :: l' => (svgImageSizes c ++ over l')%list
         end) cs
  | Fragment cs =>
      (fix over (l : list Element) : list (Z * Z) :=
         match l with
         | [] => []
         | c :: l' => (svgImageSizes c ++ over l')%list
         end) cs
  | SvgImage _ w h _ => [(w, h)]
  | Text _ _ _ => []
  | Falsy _ => []
  end.

Section Button.

(** From outside the file: the tables of ./button-style and of the two
    theme/*/color-mappings, [transformToBolderFontWeight] of
    theme/typography, what the hooks return, and the types of the
    translation parameters and of the press callback. *)
Variable I18nParams : Type.
Variable OnPress : Type.
Variable buttonModifierStyle : ButtonModifier -> ModifierStyle.
Variable baseButtonStyle : BaseButtonStyle.
Variable shadow_style : gmap string value.
Variable buttonWidthOptionStyle : ButtonWidthOption -> WidthOptionStyle.
Variable darkButtonColorMappings : ButtonVariant -> ButtonColors.
Variable lightButtonColorMappings : ButtonVariant -> ButtonColors.
Variable transformToBolderFontWeight : value -> value.
Variable t : string -> option I18nParams -> string.
Variable colorScheme : string.
Variable isBoldTextEnabled : bool.
Variable addTestIdModifier : string -> string -> string.

Record ButtonProps : Type := {
  i18nKey : string;
  i18nParams : option I18nParams;
  testID : option string;
  variant : option ButtonVariant;
  widthOption : option ButtonWidthOption;
  modifier : option ButtonModifier;
  onPress : OnPress;
  disabled : option bool;
  bodyStyleOverrides : option (gmap string value);
  buttonColorOverrides : option ButtonColors;
  iconSource : option string;
  iconPosition : option string;
  accessibilityRole : option string;
  accessibilityHint : option string
}.

Record PressableElement : Type := {
  pressable_onPress : OnPress;
  pressable_testID : option string;
  pressable_disabled : bool;
  pressable_accessibilityLabel : string;
  pressable_accessible : bool;
  pressable_accessibilityRole : string;
  pressable_accessibilityHint : option string;
  pressable_accessibilityState : option (gmap string value);
  pressable_style : StyleProp;
  pressable_children : PressableStateCallbackType -> Element
}.

Definition buttonPressableStyle (widthOption : ButtonWidthOption)
    : gmap string value :=
  let buttonWidth := width (buttonWidthOptionStyle widthOption) in
  buttonWidth.

Definition buttonColors (buttonColorOverrides : option ButtonColors)
    (buttonVariant : ButtonVariant) : ButtonColors :=
  match buttonColorOverrides with
  | Some overrides => overrides
  | None =>
      if String.eqb colorScheme "dark" then darkButtonColorMappings buttonVariant
      else lightButtonColorMappings buttonVariant
  end.

Definition buttonContainerStyle (modifier : ButtonModifier)
    (widthOption : ButtonWidthOption) (buttonColors : ButtonColors)
    (disabled : bool) (bodyStyleOverrides : gmap string value)
    (state : PressableStateCallbackType) : StyleProp :=
  let buttonContainer := buttonContainer baseButtonStyle in
  let buttonSize := size (buttonModifierStyle modifier) in
  let buttonWidth := width (buttonWidthOptionStyle widthOption) in
  let buttonBackgroundColor := containerBackground buttonColors in
  let buttonBorderColor := containerBorder buttonColors in
  let '(buttonBackgroundColor, buttonBorderColor, buttonOpacity) :=
    if disabled then
      (nullish (containerBackgroundDisabled buttonColors) buttonBackgroundColor,
       nullish (containerBorderDisabled buttonColors) buttonBorderColor,
       opacityDisabled buttonColors)
    else if pressed state then
      (nullish (containerBackgroundPressed buttonColors) buttonBackgroundColor,
       nullish (containerBorderPressed buttonColors) buttonBorderColor,
       opacityPressed buttonColors)
    else
      (buttonBackgroundColor, buttonBorderColor, opacity buttonColors) in
  let style :=
    [SStyle buttonContainer;
     SStyle buttonSize;
     SStyle buttonWidth;
     SStyle {[ "backgroundColor" := ofString buttonBackgroundColor;
               "borderColor" := ofString buttonBorderColor;
               "opacity" := ofNumber buttonOpacity ]}] in
  let style :=
    match buttonBorderColor with
    | None => (style ++ [SStyle {[ "borderWidth" := VNumber 0%Q ]}])%list
    | Some _ => style
    end in
  let style := (style ++ [SStyle bodyStyleOverrides])%list in
  SArray style.

Definition buttonShadowStyle (modifier : ButtonModifier)
    (widthOption : ButtonWidthOption) (buttonColors : ButtonColors)
    (disabled : bool) (state : PressableStateCallbackType) : StyleProp :=
  let buttonShadowColor := shadow buttonColors in
  let '(buttonShadowColor, buttonOpacity) :=
    if disabled then
      (nullish (shadowDisabled buttonColors) buttonShadowColor,
       opacityDisabled buttonColors)
    else if pressed state then
      (nullish (shadowPressed buttonColors) buttonShadowColor,
       opacityPressed buttonColors)
    else
      (buttonShadowColor, opacity buttonColors) in
  match buttonShadowColor with
  | None => SStyle noShadow
  | Some shadowColor =>
      let buttonSize := size (buttonModifierStyle modifier) in
      let buttonWidth := width (buttonWidthOptionStyle widthOption) in
      SArray
        [SStyle shadow_style;
         SStyle {[ "backgroundColor" := VString shadowColor;
                   "opacity" := ofNumber buttonOpacity ]};
         SStyle buttonSize;
         SStyle buttonWidth]
  end.

Definition buttonTextStyle (modifier : ButtonModifier)
    (buttonColors : ButtonColors) (disabled : bool) (pressed : bool)
    : StyleProp :=
  let buttonText := modifier_text (buttonModifierStyle modifier) in
  let buttonTextColor := text buttonColors in
  let buttonTextColor :=
    if disabled then nullish (disabledText buttonColors) buttonTextColor
    else if pressed then nullish (pressedText buttonColors) buttonTextColor
    else buttonTextColor in
  SArray
    [SStyle
       (<[ "fontWeight" :=
             if isBoldTextEnabled
             then transformToBolderFontWeight (get buttonText "fontWeight")
             else get buttonText "fontWeight" ]> buttonText);
     SStyle {[ "color" := ofString buttonTextColor ]}].

Definition iconSize (modifier : ButtonModifier) : Z :=
  if String.eqb modifier "small" then 20 else 24.

Definition ContainerWrapper (widthOption : ButtonWidthOption)
    (children : list Element) : Element :=
  if String.eqb widthOption "content" then View SUndefined None children
  else Fragment children.

(** The handler sets both cells, whatever they held. *)
Definition onLayoutButtonContainer : LayoutHandler :=
  fun evt _ =>
    {| buttonContainerHeight := Some (Qfloor (layout_height evt));
       buttonContainerWidth := Some (Qfloor (layout_width evt)) |}.

Definition Button (props : ButtonProps) (st : ButtonState) : PressableElement :=
  let buttonVariant := default "primary" (variant props) in
  let widthOption := default "stretch" (widthOption props) in
  let modifier := default "default" (modifier props) in
  let disabled := default false (disabled props) in
  let bodyStyleOverrides := default ∅ (bodyStyleOverrides props) in
  let iconPosition := default "right" (iconPosition props) in
  let accessibilityRole := default "button" (accessibilityRole props) in
  let colors := buttonColors (buttonColorOverrides props) buttonVariant in
  let buttonText :=
    match i18nParams props with
    | Some params => t (i18nKey props) (Some params)
    | None => t (i18nKey props) None
    end in
  let iconSize := iconSize modifier in
  let icon (position : string) (iconStyle : StyleProp) : Element :=
    match iconSource props with
    | Some source =>
        if String.eqb source EmptyString then Falsy (VString EmptyString)
        else if String.eqb iconPosition position
             then SvgImage source iconSize iconSize iconStyle
             else Falsy (VBool false)
    | None => Falsy VUndefined
    end in
  {| pressable_onPress := onPress props;
     pressable_testID := testID props;
     pressable_disabled := disabled;
     pressable_accessibilityLabel := buttonText;
     pressable_accessible := true;
     pressable_accessibilityRole := accessibilityRole;
     pressable_accessibilityHint := accessibilityHint props;
     pressable_accessibilityState :=
       if disabled then Some {[ "disabled" := VBool true ]} else None;
     pressable_style :=
       SArray [SStyle (pressed_style baseButtonStyle);
               SStyle (buttonPressableStyle widthOption)];
     pressable_children := fun state =>
       ContainerWrapper widthOption
         [View
            (SArray
               [buttonShadowStyle modifier widthOption colors disabled state;
                SStyle {[ "height" := ofDimension (buttonContainerHeight st);
                          "width" := ofDimension (buttonContainerWidth st) ]}])
            None [];
          View
            (buttonContainerStyle modifier widthOption colors disabled
               bodyStyleOverrides state)
            (Some onLayoutButtonContainer)
            [View (SStyle (buttonContainerInner baseButtonStyle)) None
               [icon "left" SUndefined;
                Text
                  (addTestIdModifier (default (i18nKey props) (testID props)) "text")
                  (buttonTextStyle modifier colors disabled (pressed state))
                  buttonText;
                icon "right"
                  (SArray
                     [if disabled
                      then SStyle (buttonIconDisabled baseButtonStyle)
                      else SUndefined])]]] |}.

(** The three definitions below are not in the source: they name the style
    array each callback must return once its colours and opacity are
    resolved, so that the statements about the callbacks can be read. *)

(** The container bundle for a background, a border and an opacity. *)
Definition containerBundle (modifier : ButtonModifier)
    (widthOption : ButtonWidthOption)
    (bodyStyleOverrides : gmap string value)
    (background border : option string) (alpha : option Q) : StyleProp :=
  SArray
    ([SStyle (buttonContainer baseButtonStyle);
      SStyle (size (buttonModifierStyle modifier));
      SStyle (width (buttonWidthOptionStyle widthOption));
      SStyle {[ "backgroundColor" := ofString background;
                "borderColor" := ofString border;
                "opacity" := ofNumber alpha ]}]
     ++ match border with
        | None => [SStyle {[ "borderWidth" := VNumber 0%Q ]}]
        | Some _ => []
        end
     ++ [SStyle bodyStyleOverrides])%list.

(** The shadow bundle for a shadow colour and an opacity. *)
Definition shadowBundle (modifier : ButtonModifier)
    (widthOption : ButtonWidthOption)
    (color : option string) (alpha : option Q) : StyleProp :=
  match color with
  | None => SStyle noShadow
  | Some c =>
      SArray
        [SStyle shadow_style;
         SStyle {[ "backgroundColor" := VString c; "opacity" := ofNumber alpha ]};
         SStyle (size (buttonModifierStyle modifier));
         SStyle (width (buttonWidthOptionStyle widthOption))]
  end.

(** The text bundle for a text colour. *)
Definition textBundle (modifier : ButtonModifier)
    (color : option string) : StyleProp :=
  let buttonText := modifier_text (buttonModifierStyle modifier) in
  SArray
    [SStyle
       (<[ "fontWeight" :=
             if isBoldTextEnabled
             then transformToBolderFontWeight (get buttonText "fontWeight")
             else get buttonText "fontWeight" ]> buttonText);
     SStyle {[ "color" := ofString color ]}].

(** The resolution order the specification gives for a colour:
    "disabled ? (disabledVariant ?? base) : pressed ? (pressedVariant ?? base)
    : base". *)
Definition resolvedColor (disabled pressed : bool)
    (base pressedVariant disabledVariant : option string) : option string :=
  if disabled then nullish disabledVariant base
  else if pressed then nullish pressedVariant base
  else base.

(** And for the opacity: "disabled ? opacityDisabled : pressed ?
    opacityPressed : opacity". *)
Definition resolvedOpacity (disabled pressed : bool)
    (colors : ButtonColors) : option Q :=
  if disabled then opacityDisabled colors
  else if pressed then opacityPressed colors
  else opacity colors.

Definition resolvedBorderColor (colors : ButtonColors)
    (disabled pressed : bool) : option string :=
  resolvedColor disabled pressed (containerBorder colors)
    (containerBorderPressed colors) (containerBorderDisabled colors).

Definition resolvedShadowColor (colors : ButtonColors)
    (disabled pressed : bool) : option string :=
  resolvedColor disabled pressed (shadow colors)
    (shadowPressed colors) (shadowDisabled colors).

(** The shadow layer is the first child inside the wrapper. *)
Definition shadowLayerStyle (e : Element) : option StyleProp :=
  match e with
  | View _ _ (View shadowStyle _ _ :: _) => Some shadowStyle
  | Fragment (View shadowStyle _ _ :: _) => Some shadowStyle
  | _ => None
  end.

(** The host delivers a layout event of the container to the [onLayout]
    handler of the container, the second child inside the wrapper. *)
Definition containerOnLayout (e : Element) : option LayoutHandler :=
  match e with
  | View _ _ (_ :: View _ handler _ :: _) => handler
  | Fragment (_ :: View _ handler _ :: _) => handler
  | _ => None
  end.

Definition deliver (props : ButtonProps) (state : PressableStateCallbackType)
    (evt : LayoutChangeEvent) (st : ButtonState) : ButtonState :=
  match containerOnLayout (pressable_children (Button props st) state) with
  | Some handler => handler evt st
  | None => st
  end.

(** One mount: the layout events of the container in the order they arrive,
    each with the props and the pressable state of the render it arrives at. *)
Fixpoint run
    (evts : list (ButtonProps * PressableStateCallbackType * LayoutChangeEvent))
    (st : ButtonState) : ButtonState :=
  match evts with
  | [] => st
  | (props, state, evt) :: rest => run rest (deliver props state evt st)
  end.

End Button.

Arguments Button {I18nParams OnPress}.
Arguments deliver {I18nParams OnPress}.
Arguments run {I18nParams OnPress}.
Arguments pressable_children {OnPress}.
Arguments variant {I18nParams OnPress}.
Arguments widthOption {I18nParams OnPress}.
Arguments modifier {I18nParams OnPress}.
Arguments disabled {I18nParams OnPress}.
Arguments bodyStyleOverrides {I18nParams OnPress}.
Arguments buttonColorOverrides {I18nParams OnPress}.
Arguments iconSource {I18nParams OnPress}.
Arguments iconPosition {I18nParams OnPress}.

(** A small instance of what the component imports: empty style tables, one
    colour record for every variant and scheme, translations that return the
    key. *)
Definition noColors : ButtonColors :=
  {| containerBackground := None;
     containerBackgroundDisabled := None;
     containerBackgroundPressed := None;
     containerBorder := None;
     containerBorderDisabled := None;
     containerBorderPressed := None;
     opacity := None;
     opacityDisabled := None;
     opacityPressed := None;
     shadow := None;
     shadowDisabled := None;
     shadowPressed := None;
     text := None;
     disabledText := None;
     pressedText := None |}.

(** Colours with a base opacity of 0.5 and no disabled opacity. *)
Definition halfOpaque : ButtonColors :=
  {| containerBackground := Some "#fff";
     containerBackgroundDisabled := None;
     containerBackgroundPressed := None;
     containerBorder := Some "#000";
     containerBorderDisabled := None;
     containerBorderPressed := None;
     opacity := Some (1 # 2)%Q;
     opacityDisabled := None;
     opacityPressed := None;
     shadow := Some "#888";
     shadowDisabled := None;
     shadowPressed := None;
     text := Some "#000";
     disabledText := None;
     pressedText := None |}.

Definition sampleModifierStyle : ButtonModifier -> ModifierStyle :=
  fun _ => {| size := ∅; modifier_text := ∅ |}.

Definition sampleBaseStyle : BaseButtonStyle :=
  {| buttonContainer := ∅;
     pressed_style := ∅;
     buttonContainerInner := ∅;
     buttonIconDisabled := ∅ |}.

Definition sampleWidthStyle : ButtonWidthOption -> WidthOptionStyle :=
  fun _ => {| width := ∅ |}.

Definition sampleProps : ButtonProps unit unit :=
  {| i18nKey := "ok";
     i18nParams := None;
     testID := None;
     variant := None;
     widthOption := None;
     modifier := None;
     onPress := tt;
     disabled := None;
     bodyStyleOverrides := None;
     buttonColorOverrides := None;
     iconSource := None;
     iconPosition := None;
     accessibilityRole := None;
     accessibilityHint := None |}.

Definition sampleButton (props : ButtonProps unit unit) (st : ButtonState)
    : PressableElement unit :=
  Button sampleModifierStyle sampleBaseStyle ∅ sampleWidthStyle
    (fun _ => noColors) (fun _ => noColors) (fun weight => weight)
    (fun key _ => key) "light" false (fun id suffix => id ++ "." ++ suffix)
    props st.

Definition sampleRun
    (evts : list (ButtonProps unit unit * PressableStateCallbackType
                  * LayoutChangeEvent))
    (st : ButtonState) : ButtonState :=
  run sampleModifierStyle sampleBaseStyle ∅ sampleWidthStyle
    (fun _ => noColors) (fun _ => noColors) (fun weight => weight)
    (fun key _ => key) "light" false (fun id suffix => id ++ "." ++ suffix)
    evts st.

(** What ends up on screen inside the button, left to right: the icons and
    the label. *)
Inductive Leaf : Type :=
| LeafIcon (type : string) (width height : Z) (style : StyleProp)
| LeafText (testID : string) (style : StyleProp) (content : string).

Fixpoint leaves (e : Element) : list Leaf :=
  match e with
  | View _ _ cs =>
      (fix over (l : list Element) : list Leaf :=
         match l with
         | [] => []
         | c :: l' => (leaves c ++ over l')%list
         end) cs
  | Fragment cs =>
      (fix over (l : list Element) : list Leaf :=
         match l with
         | [] => []
         | c :: l' => (leaves c ++ over l')%list
         end) cs
  | SvgImage type w h style => [LeafIcon type w h style]
  | Text testID style content => [LeafText testID style content]
  | Falsy _ => []
  end.

(** Colours with base values only: no pressed or disabled variant, no
    opacity. *)
Definition solidColors : ButtonColors :=
  {| containerBackground := Some "#fff";
     containerBackgroundDisabled := None;
     containerBackgroundPressed := None;
     containerBorder := None;
     containerBorderDisabled := None;
     containerBorderPressed := None;
     opacity := None;
     opacityDisabled := None;
     opacityPressed := None;
     shadow := Some "#888";
     shadowDisabled := None;
     shadowPressed := None;
     text := Some "#000";
     disabledText := None;
     pressedText := None |}.

(** A disabled button with an icon on the left and a test id. *)
Definition iconLeftProps : ButtonProps unit unit :=
  {| i18nKey := "save";
     i18nParams := None;
     testID := Some "saveButton";
     variant := None;
     widthOption := Some "content";
     modifier := Some "small";
     onPress := tt;
     disabled := Some true;
     bodyStyleOverrides := None;
     buttonColorOverrides := Some halfOpaque;
     iconSource := Some "arrow";
     iconPosition := Some "left";
     accessibilityRole := None;
     accessibilityHint := None |}.

End Button.

(** * Properties *)

(** ** AlertContent: measure once, then scroll *)

Module AlertContentSpec.
Section AlertContentSpec.

Context {Node Ref : Type}.
Variable spacing : nat -> Q.
Variable secondaryBackground : string.
Variable ref : Ref.

Local Abbreviation Props := (AlertContent.AlertContentProps Node).
Local Abbreviation render := (AlertContent.AlertContent spacing secondaryBackground).
Local Abbreviation deliver := (AlertContent.deliver spacing secondaryBackground).
Local Abbreviation run := (AlertContent.run spacing secondaryBackground ref).
Local Abbreviation firstMeasured := AlertContent.firstMeasured.

Lemma deliver_unmeasured (props : Props) evt h :
  Qeq_bool h 0%Q = true -> deliver props ref evt h = layout_height evt.
Proof.
  intros Hz. unfold AlertContent.deliver, AlertContent.AlertContent.
  now rewrite Hz.
Qed.

Lemma deliver_measured (props : Props) evt h :
  Qeq_bool h 0%Q = false -> deliver props ref evt h = h.
Proof.
  intros Hz. unfold AlertContent.deliver, AlertContent.AlertContent.
  now rewrite Hz.
Qed.

Lemma run_measured (evts : list (Props * LayoutChangeEvent)) h :
  Qeq_bool h 0%Q = false -> run evts h = h.
Proof.
  induction evts as [|[props evt] rest IH]; intros Hz; simpl; [reflexivity|].
  rewrite deliver_measured by exact Hz. now apply IH.
Qed.

Lemma run_unmeasured_none (evts : list (Props * LayoutChangeEvent)) h :
  Qeq_bool h 0%Q = true -> firstMeasured evts = None ->
  Qeq_bool (run evts h) 0%Q = true.
Proof.
  revert h. induction evts as [|[props evt] rest IH]; intros h Hz Hnone; simpl.
  - exact Hz.
  - simpl in Hnone. rewrite deliver_unmeasured by exact Hz.
    destruct (Qeq_bool (layout_height evt) 0%Q) eqn:He; [|discriminate].
    now apply IH.
Qed.

Lemma run_unmeasured_some (evts : list (Props * LayoutChangeEvent)) h m :
  Qeq_bool h 0%Q = true -> firstMeasured evts = Some m ->
  run evts h = m /\ Qeq_bool m 0%Q = false.
Proof.
  revert h. induction evts as [|[props evt] rest IH]; intros h Hz Hsome; simpl.
  - discriminate.
  - simpl in Hsome. rewrite deliver_unmeasured by exact Hz.
    destruct (Qeq_bool (layout_height evt) 0%Q) eqn:He.
    + now apply IH.
    + injection Hsome as <-. split; [now apply run_measured | exact He].
Qed.

Lemma firstMeasured_app (evts more : list (Props * LayoutChangeEvent)) m :
  firstMeasured evts = Some m -> firstMeasured (evts ++ more) = Some m.
Proof.
  induction evts as [|[props evt] rest IH]; simpl; [discriminate|].
  destruct (Qeq_bool (layout_height evt) 0%Q); [exact IH | trivial].
Qed.

(** C4.  Over one mount, starting from the height state 0 and for any layout
    events: the component renders the non-scrolling [View] as long as no
    event has measured a height other than 0, and from the first such event
    on it renders the [ScrollView] whose [maxHeight] is that first nonzero
    height; whatever events follow, the state stays at that height, so the
    component never goes back to the [View]. *)
Theorem alert_content_measure_then_scroll :
  forall (evts : list (Props * LayoutChangeEvent)) (props : Props),
    render props ref (run evts AlertContent.initialContentHeight) =
      match firstMeasured evts with
      | None =>
          AlertContent.View ref "alert" AlertContent.onLayout
            (SArray [SStyle (AlertContent.styles_container spacing);
                     SStyle {[ "backgroundColor" := VString secondaryBackground ]};
                     SStyle (AlertContent.styles_content spacing);
                     AlertContent.style props])
            (AlertContent.children props)
      | Some h =>
          AlertContent.ScrollView ref "alert"
            (SArray [SStyle (AlertContent.styles_container spacing);
                     SStyle {[ "backgroundColor" := VString secondaryBackground ]};
                     SStyle {[ "maxHeight" := VNumber h ]}])
            (SArray [SStyle (AlertContent.styles_content spacing);
                     AlertContent.style props])
            (AlertContent.children props)
      end
    /\ (forall h more,
          firstMeasured evts = Some h ->
          ~ (h == 0)%Q
          /\ firstMeasured (evts ++ more) = Some h
          /\ run (evts ++ more) AlertContent.initialContentHeight = h).
Proof.
  intros evts props.
  assert (Hinit : Qeq_bool AlertContent.initialContentHeight 0%Q = true)
    by reflexivity.
  split.
  - destruct (firstMeasured evts) as [h|] eqn:Hfirst.
    + destruct (run_unmeasured_some evts _ h Hinit Hfirst) as [-> Hnz].
      unfold AlertContent.AlertContent. now rewrite Hnz.
    + pose proof (run_unmeasured_none evts _ Hinit Hfirst) as Hz.
      unfold AlertContent.AlertContent. now rewrite Hz.
  - intros h more Hfirst.
    destruct (run_unmeasured_some evts _ h Hinit Hfirst) as [_ Hnz].
    pose proof (firstMeasured_app evts more h Hfirst) as Happ.
    split; [|split].
    + intros Heq. apply Qeq_bool_iff in Heq. congruence.
    + exact Happ.
    + now destruct (run_unmeasured_some (evts ++ more) _ h Hinit Happ).
Qed.

Lemma deliver_by_height (props props' : Props) evt evt' h :
  layout_height evt = layout_height evt' ->
  deliver props ref evt h = deliver props' ref evt' h.
Proof.
  intros Hh. destruct (Qeq_bool h 0%Q) eqn:Hz.
  - rewrite !deliver_unmeasured by exact Hz. exact Hh.
  - now rewrite !deliver_measured by exact Hz.
Qed.

(** X1.  The height state of a mount depends on the measured heights alone:
    two sequences of layout events with the same heights, whatever their
    widths and whatever props the component was rendered with, leave the
    same state. *)
Theorem content_height_ignores_width_and_props :
  forall (evts evts' : list (Props * LayoutChangeEvent)) (contentHeight : Q),
    map (fun pe => layout_height (snd pe)) evts =
      map (fun pe => layout_height (snd pe)) evts' ->
    run evts contentHeight = run evts' contentHeight.
Proof.
  induction evts as [|[props evt] rest IH];
    intros [|[props' evt'] rest'] contentHeight Hmap; simpl in *;
    try discriminate; [reflexivity|].
  injection Hmap as Hh Hrest.
  rewrite (deliver_by_height props props' evt evt' contentHeight Hh).
  now apply IH.
Qed.

End AlertContentSpec.

Lemma content_height_ignores_width_and_props_witness :
  map (fun pe => layout_height (snd pe)) AlertContent.narrowMount =
    map (fun pe => layout_height (snd pe)) AlertContent.wideMount
  /\ AlertContent.run (fun _ => 4%Q) "#fff" tt AlertContent.narrowMount 0%Q =
       AlertContent.run (fun _ => 4%Q) "#fff" tt AlertContent.wideMount 0%Q.
Proof.
  split; [reflexivity|].
  apply (content_height_ignores_width_and_props (fun _ => 4%Q) "#fff" tt
           AlertContent.narrowMount AlertContent.wideMount 0%Q).
  reflexivity.
Defined.

End AlertContentSpec.

(** ** Alert: the host modal and the dismiss capability *)

Module AlertSpec.
Section AlertSpec.

Context {World Node : Type}.

Local Abbreviation Props := (Alert.AlertProps World Node).
Local Abbreviation modal props := (Alert.provider_children (Alert.Alert props)).
Local Abbreviation context props := (Alert.provider_value (Alert.Alert props)).

Lemma modalProps_named (props : Props) k :
  k ∈ Alert.destructured -> Alert.modalProps props !! k = None.
Proof.
  unfold Alert.modalProps, Alert.destructured. simpl. intros Hin.
  repeat (apply elem_of_cons in Hin as [->|Hin];
          [ repeat (first [ apply lookup_delete_eq
                          | rewrite lookup_delete_ne by discriminate ]) | ]).
  inversion Hin.
Qed.

Lemma modalProps_other (props : Props) k :
  k ∉ Alert.destructured -> Alert.modalProps props !! k = Alert.others props !! k.
Proof.
  unfold Alert.modalProps, Alert.destructured. simpl. intros Hnot.
  rewrite !lookup_delete_ne; [reflexivity | ..];
    intros <-; apply Hnot; repeat constructor.
Qed.

Lemma passthroughKeys_other k :
  k ∈ Alert.passthroughKeys -> k ∉ Alert.destructured.
Proof.
  unfold Alert.passthroughKeys, Alert.destructured. intros Hin Hde.
  repeat (apply elem_of_cons in Hin as [->|Hin];
          [ repeat (apply elem_of_cons in Hde as [Hde|Hde]; [discriminate|]);
            inversion Hde | ]).
  inversion Hin.
Qed.

(** A key the caller passes through reaches the modal with the caller's
    value, whatever Alert set for it. *)
Lemma modal_props_passthrough (props : Props) k v :
  k ∉ Alert.destructured -> Alert.others props !! k = Some v ->
  Alert.modal_props (modal props) !! k = Some v.
Proof.
  intros Hnot Hk. simpl. unfold spread.
  apply lookup_union_Some_l. now rewrite modalProps_other.
Qed.

(** A key the caller does not pass keeps the value Alert set. *)
Lemma modal_props_own (props : Props) k :
  Alert.modalProps props !! k = None ->
  Alert.modal_props (modal props) !! k =
    ({[ "presentationStyle" := Alert.PString "overFullScreen";
        "transparent" := Alert.PBool true;
        "visible" :=
          Alert.PBool (Alert.visible props
                       || bool_decide (Alert.isLoading props = Some true));
        "onRequestClose" :=
          Alert.PCallback World (Alert.callOnChange (Alert.onChange props) false);
        "onShow" :=
          Alert.PCallback World (Alert.callOnChange (Alert.onChange props) true);
        "onDismiss" :=
          Alert.PCallback World (Alert.callOnChange (Alert.onChange props) false) ]}
      : gmap string (Alert.PropValue World)) !! k.
Proof.
  intros Hk. simpl. unfold spread. now rewrite lookup_union_r.
Qed.

Lemma modal_props_visible (props : Props) :
  Alert.modal_props (modal props) !! "visible" =
    Some (Alert.PBool (Alert.visible props
                       || bool_decide (Alert.isLoading props = Some true))).
Proof.
  rewrite modal_props_own.
  - reflexivity.
  - apply modalProps_named. unfold Alert.destructured. set_solver.
Qed.

(** C1.  For every props object the host modal is shown exactly when
    [visible] is [true] or [isLoading] is [true], and whenever [isLoading] is
    [true] the modal's content is the loading overlay, whatever [visible] is;
    otherwise it is the container with the backdrop and the children. *)
Theorem alert_shown_iff_visible_or_loading :
  forall props : Props,
    (Alert.shown (modal props) = true <->
       Alert.visible props = true \/ Alert.isLoading props = Some true)
    /\ Alert.modal_props (modal props) !! "visible" =
         Some (Alert.PBool
                 (Alert.visible props
                  || bool_decide (Alert.isLoading props = Some true)))
    /\ (Alert.isLoading props = Some true ->
          Alert.modal_children (modal props) = Alert.LoadingIndicatorOverlay)
    /\ (Alert.isLoading props <> Some true ->
          Alert.modal_children (modal props) =
            Alert.AlertContainer (Alert.visible props)
              [Alert.AlertBackdrop (Alert.dismissable props);
               Alert.Children (Alert.children props)]).
Proof.
  intros props. split; [|split; [|split]].
  - unfold Alert.shown. rewrite modal_props_visible.
    destruct (Alert.visible props); simpl.
    + split; [now left | reflexivity].
    + destruct (bool_decide (Alert.isLoading props = Some true)) eqn:Hb.
      * apply bool_decide_eq_true in Hb. split; [now right | reflexivity].
      * apply bool_decide_eq_false in Hb.
        split; [discriminate | intros [Hv|Hl]; [discriminate | contradiction]].
  - apply modal_props_visible.
  - intros Hl. simpl. now rewrite Hl.
  - intros Hl. simpl. destruct (Alert.isLoading props) as [[|]|]; congruence.
Qed.

(** C6, as amended.  When the props passed through to the modal carry no
    [onRequestClose] key, the [dismiss] of the context value is the very
    callback the modal holds for a close request of the host, and running it
    is the call [onChange?.(false)]. *)
Theorem dismiss_is_close_request_handler :
  forall props : Props,
    Alert.others props !! "onRequestClose" = None ->
    Alert.modal_props (modal props) !! "onRequestClose" =
      Some (Alert.PCallback World (Alert.dismiss (context props)))
    /\ Alert.hostEvent "onRequestClose" (modal props) =
         Alert.dismiss (context props)
    /\ Alert.dismiss (context props) =
         Alert.callOnChange (Alert.onChange props) false.
Proof.
  intros props Hnone.
  assert (Hlook : Alert.modal_props (modal props) !! "onRequestClose" =
                    Some (Alert.PCallback World (Alert.dismiss (context props)))).
  { rewrite modal_props_own; [reflexivity|].
    rewrite modalProps_other; [exact Hnone|].
    apply passthroughKeys_other. unfold Alert.passthroughKeys. set_solver. }
  split; [exact Hlook | split; [|reflexivity]].
  unfold Alert.hostEvent. now rewrite Hlook.
Qed.

(** C10.  A caller who passes one of [onRequestClose], [onShow],
    [onDismiss], [transparent] or [presentationStyle] replaces the value
    Alert sets for it: the modal holds the caller's value, a host event of
    that name runs the caller's callback, and neither depends on [onChange]
    any more. *)
Theorem passthrough_replaces_alert_props :
  forall (props : Props) k v,
    k ∈ Alert.passthroughKeys ->
    Alert.others props !! k = Some v ->
    Alert.modal_props (modal props) !! k = Some v
    /\ (forall f, v = Alert.PCallback World f ->
          Alert.hostEvent k (modal props) = f)
    /\ (forall onChange',
          Alert.modal_props
            (modal {| Alert.visible := Alert.visible props;
                      Alert.onChange := onChange';
                      Alert.children := Alert.children props;
                      Alert.dismissable := Alert.dismissable props;
                      Alert.isLoading := Alert.isLoading props;
                      Alert.others := Alert.others props |}) !! k = Some v).
Proof.
  intros props k v Hk Hv. apply passthroughKeys_other in Hk.
  pose proof (modal_props_passthrough props k v Hk Hv) as Hlook.
  split; [exact Hlook | split].
  - intros f ->. unfold Alert.hostEvent. now rewrite Hlook.
  - intros onChange'. now apply modal_props_passthrough.
Qed.




(** X4.  When the caller passes no [onShow] and no [onDismiss] of its own,
    the host's show event is the call [onChange?.(true)] and its dismiss
    event the call [onChange?.(false)]. *)
Theorem show_and_dismiss_report_to_onChange :
  forall props : Props,
    Alert.others props !! "onShow" = None ->
    Alert.others props !! "onDismiss" = None ->
    Alert.hostEvent "onShow" (modal props) =
      Alert.callOnChange (Alert.onChange props) true
    /\ Alert.hostEvent "onDismiss" (modal props) =
         Alert.callOnChange (Alert.onChange props) false.
Proof.
  intros props Hshow Hdismiss. unfold Alert.hostEvent.
  rewrite !modal_props_own.
  - split; reflexivity.
  - rewrite modalProps_other; [exact Hdismiss|].
    apply passthroughKeys_other. unfold Alert.passthroughKeys. set_solver.
  - rewrite modalProps_other; [exact Hshow|].
    apply passthroughKeys_other. unfold Alert.passthroughKeys. set_solver.
Qed.

(** X5.  Without an [onChange], nothing Alert wires does anything: [dismiss]
    leaves the caller's world as it is, and so does every host event for
    which the caller passed no prop of its own. *)
Theorem without_onChange_nothing_is_reported :
  forall (props : Props) (w : World),
    Alert.onChange props = None ->
    Alert.dismiss (context props) w = w
    /\ (forall k, Alert.modalProps props !! k = None ->
          Alert.hostEvent k (modal props) w = w).
Proof.
  intros props w Hnone. split.
  - simpl. now rewrite Hnone.
  - intros k Hk. unfold Alert.hostEvent. rewrite modal_props_own by exact Hk.
    rewrite Hnone. rewrite !lookup_insert, lookup_singleton.
    repeat case_decide; reflexivity.
Qed.

(** X6.  Whenever the modal's content is the alert container, the container
    is told it is visible exactly when the modal is shown, and the alert is
    not loading. *)
Theorem container_visibility_matches_modal :
  forall (props : Props) v content,
    Alert.modal_children (modal props) = Alert.AlertContainer v content ->
    Alert.shown (modal props) = v
    /\ Alert.isLoading props <> Some true
    /\ content = [Alert.AlertBackdrop (Alert.dismissable props);
                  Alert.Children (Alert.children props)].
Proof.
  intros props v content Hchild. simpl in Hchild.
  unfold Alert.shown. rewrite modal_props_visible.
  destruct (Alert.isLoading props) as [[|]|] eqn:Hl; try discriminate;
    injection Hchild as <- <-;
    (split; [|split; [congruence | reflexivity]]);
    rewrite bool_decide_eq_false_2 by congruence;
    now destruct (Alert.visible props).
Qed.

End AlertSpec.

Lemma dismiss_is_close_request_handler_witness :
  Alert.others Alert.plainProps !! "onRequestClose" = None
  /\ Alert.modal_props (Alert.provider_children (Alert.Alert Alert.plainProps))
       !! "onRequestClose" =
       Some (Alert.PCallback (list bool)
               (Alert.dismiss (Alert.provider_value (Alert.Alert Alert.plainProps))))
  /\ Alert.hostEvent "onRequestClose"
       (Alert.provider_children (Alert.Alert Alert.plainProps)) =
       Alert.dismiss (Alert.provider_value (Alert.Alert Alert.plainProps))
  /\ Alert.dismiss (Alert.provider_value (Alert.Alert Alert.plainProps)) =
       Alert.callOnChange (Alert.onChange Alert.plainProps) false.
Proof.
  split; [reflexivity|].
  apply (dismiss_is_close_request_handler Alert.plainProps). reflexivity.
Defined.

(** C6, as stated, fails when the caller passes [onRequestClose]: the close
    request of the host runs the caller's callback and logs nothing, while
    [dismiss] logs [false]. *)
Lemma dismiss_differs_from_overridden_close_handler :
  let alert := Alert.Alert Alert.overridingProps in
  Alert.dismiss (Alert.provider_value alert) [] = [false]
  /\ Alert.hostEvent "onRequestClose" (Alert.provider_children alert) [] = []
  /\ Alert.hostEvent "onRequestClose" (Alert.provider_children alert) <>
       Alert.dismiss (Alert.provider_value alert).
Proof.
  assert (Hhost : Alert.hostEvent "onRequestClose"
                    (Alert.provider_children (Alert.Alert Alert.overridingProps)) [] = []).
  { unfold Alert.hostEvent.
    rewrite (modal_props_passthrough Alert.overridingProps "onRequestClose"
               (Alert.PCallback (list bool) (fun log => log))).
    - reflexivity.
    - apply passthroughKeys_other. unfold Alert.passthroughKeys. set_solver.
    - apply lookup_singleton_eq. }
  split; [reflexivity | split; [exact Hhost|]].
  intros Heq. rewrite Heq in Hhost. discriminate Hhost.
Qed.

Lemma passthrough_replaces_alert_props_witness :
  "onRequestClose" ∈ Alert.passthroughKeys
  /\ Alert.others Alert.overridingProps !! "onRequestClose" =
       Some (Alert.PCallback (list bool) (fun log => log))
  /\ Alert.modal_props (Alert.provider_children (Alert.Alert Alert.overridingProps))
       !! "onRequestClose" = Some (Alert.PCallback (list bool) (fun log => log))
  /\ Alert.hostEvent "onRequestClose"
       (Alert.provider_children (Alert.Alert Alert.overridingProps)) [true] = [true].
Proof.
  assert (Hkey : "onRequestClose" ∈ Alert.passthroughKeys)
    by (unfold Alert.passthroughKeys; apply list_elem_of_here).
  assert (Hpass : Alert.others Alert.overridingProps !! "onRequestClose" =
                    Some (Alert.PCallback (list bool) (fun log => log)))
    by reflexivity.
  destruct (passthrough_replaces_alert_props Alert.overridingProps "onRequestClose"
              (Alert.PCallback (list bool) (fun log => log)) Hkey Hpass)
    as (Hlook & Hrun & _).
  split; [exact Hkey | split; [exact Hpass | split; [exact Hlook|]]].
  now rewrite (Hrun (fun log => log) eq_refl).
Defined.


Lemma show_and_dismiss_report_to_onChange_witness :
  Alert.others Alert.plainProps !! "onShow" = None
  /\ Alert.others Alert.plainProps !! "onDismiss" = None
  /\ Alert.hostEvent "onShow"
       (Alert.provider_children (Alert.Alert Alert.plainProps)) [] = [true]
  /\ Alert.hostEvent "onDismiss"
       (Alert.provider_children (Alert.Alert Alert.plainProps)) [true] =
       [false; true].
Proof.
  destruct (show_and_dismiss_report_to_onChange Alert.plainProps eq_refl eq_refl)
    as [Hshow Hdismiss].
  split; [reflexivity | split; [reflexivity|]].
  rewrite Hshow, Hdismiss. split; reflexivity.
Defined.

Lemma without_onChange_nothing_is_reported_witness :
  Alert.onChange Alert.animatedProps = None
  /\ Alert.dismiss (Alert.provider_value (Alert.Alert Alert.animatedProps))
       [true] = [true]
  /\ Alert.hostEvent "onRequestClose"
       (Alert.provider_children (Alert.Alert Alert.animatedProps)) [true] = [true].
Proof.
  destruct (without_onChange_nothing_is_reported Alert.animatedProps [true] eq_refl)
    as [Hdismiss Hevent].
  split; [reflexivity | split; [exact Hdismiss|]].
  apply Hevent. reflexivity.
Defined.

Lemma container_visibility_matches_modal_witness :
  Alert.modal_children (Alert.provider_children (Alert.Alert Alert.plainProps)) =
    Alert.AlertContainer true
      [Alert.AlertBackdrop None; Alert.Children tt]
  /\ Alert.shown (Alert.provider_children (Alert.Alert Alert.plainProps)) = true.
Proof.
  split; [reflexivity|].
  apply (container_visibility_matches_modal Alert.plainProps true
           [Alert.AlertBackdrop None; Alert.Children tt]).
  reflexivity.
Defined.

End AlertSpec.

(** ** Button: colours, style bundles, icon size and the measured layout *)

Module ButtonSpec.
Section ButtonSpec.

Context {I18nParams OnPress : Type}.
Variable buttonModifierStyle : Button.ButtonModifier -> Button.ModifierStyle.
Variable baseButtonStyle : Button.BaseButtonStyle.
Variable shadow_style : gmap string value.
Variable buttonWidthOptionStyle : Button.ButtonWidthOption -> Button.WidthOptionStyle.
Variable darkButtonColorMappings : Button.ButtonVariant -> Button.ButtonColors.
Variable lightButtonColorMappings : Button.ButtonVariant -> Button.ButtonColors.
Variable transformToBolderFontWeight : value -> value.
Variable t : string -> option I18nParams -> string.
Variable colorScheme : string.
Variable isBoldTextEnabled : bool.
Variable addTestIdModifier : string -> string -> string.

Local Abbreviation Props := (Button.ButtonProps I18nParams OnPress).
Local Abbreviation buttonColors :=
  (Button.buttonColors darkButtonColorMappings lightButtonColorMappings colorScheme).
Local Abbreviation buttonContainerStyle :=
  (Button.buttonContainerStyle buttonModifierStyle baseButtonStyle
     buttonWidthOptionStyle).
Local Abbreviation buttonShadowStyle :=
  (Button.buttonShadowStyle buttonModifierStyle shadow_style buttonWidthOptionStyle).
Local Abbreviation buttonTextStyle :=
  (Button.buttonTextStyle buttonModifierStyle transformToBolderFontWeight
     isBoldTextEnabled).
Local Abbreviation render :=
  (Button.Button buttonModifierStyle baseButtonStyle
     shadow_style buttonWidthOptionStyle darkButtonColorMappings
     lightButtonColorMappings transformToBolderFontWeight t colorScheme
     isBoldTextEnabled addTestIdModifier).
Local Abbreviation deliver :=
  (Button.deliver buttonModifierStyle baseButtonStyle
     shadow_style buttonWidthOptionStyle darkButtonColorMappings
     lightButtonColorMappings transformToBolderFontWeight t colorScheme
     isBoldTextEnabled addTestIdModifier).
Local Abbreviation run :=
  (Button.run buttonModifierStyle baseButtonStyle
     shadow_style buttonWidthOptionStyle darkButtonColorMappings
     lightButtonColorMappings transformToBolderFontWeight t colorScheme
     isBoldTextEnabled addTestIdModifier).

Local Abbreviation containerBundle :=
  (Button.containerBundle buttonModifierStyle baseButtonStyle
     buttonWidthOptionStyle).
Local Abbreviation shadowBundle :=
  (Button.shadowBundle buttonModifierStyle shadow_style buttonWidthOptionStyle).
Local Abbreviation textBundle :=
  (Button.textBundle buttonModifierStyle transformToBolderFontWeight
     isBoldTextEnabled).
Local Abbreviation resolvedColor := Button.resolvedColor.
Local Abbreviation resolvedOpacity := Button.resolvedOpacity.
Local Abbreviation resolvedBorderColor := Button.resolvedBorderColor.
Local Abbreviation resolvedShadowColor := Button.resolvedShadowColor.

Lemma buttonContainerStyle_resolved modifier widthOption colors disabled body state :
  buttonContainerStyle modifier widthOption colors disabled body state =
    containerBundle modifier widthOption body
      (resolvedColor disabled (Button.pressed state)
         (Button.containerBackground colors)
         (Button.containerBackgroundPressed colors)
         (Button.containerBackgroundDisabled colors))
      (resolvedBorderColor colors disabled (Button.pressed state))
      (resolvedOpacity disabled (Button.pressed state) colors).
Proof.
  unfold Button.buttonContainerStyle, Button.containerBundle,
    Button.resolvedBorderColor, Button.resolvedColor, Button.resolvedOpacity.
  destruct disabled; [|destruct (Button.pressed state)]; simpl;
    match goal with
    | |- context [match ?b with Some _ => _ | None => _ end] => destruct b
    end; reflexivity.
Qed.

Lemma buttonShadowStyle_resolved modifier widthOption colors disabled state :
  buttonShadowStyle modifier widthOption colors disabled state =
    shadowBundle modifier widthOption
      (resolvedShadowColor colors disabled (Button.pressed state))
      (resolvedOpacity disabled (Button.pressed state) colors).
Proof.
  unfold Button.buttonShadowStyle, Button.shadowBundle,
    Button.resolvedShadowColor, Button.resolvedColor, Button.resolvedOpacity.
  destruct disabled; [|destruct (Button.pressed state)]; reflexivity.
Qed.

Lemma buttonTextStyle_resolved modifier colors disabled pressed :
  buttonTextStyle modifier colors disabled pressed =
    textBundle modifier
      (resolvedColor disabled pressed (Button.text colors)
         (Button.pressedText colors) (Button.disabledText colors)).
Proof.
  unfold Button.buttonTextStyle, Button.textBundle, Button.resolvedColor.
  destruct disabled; [|destruct pressed]; reflexivity.
Qed.

(** What the render hands to the style callbacks, after the defaults. *)
Local Abbreviation modifierOf props := (default "default" (Button.modifier props)).
Local Abbreviation widthOptionOf props := (default "stretch" (Button.widthOption props)).
Local Abbreviation disabledOf props := (default false (Button.disabled props)).
Local Abbreviation colorsOf props :=
  (buttonColors (Button.buttonColorOverrides props)
     (default "primary" (Button.variant props))).

Lemma shadow_layer_rendered (props : Props) st state :
  Button.shadowLayerStyle (Button.pressable_children (render props st) state) =
    Some (SArray
            [buttonShadowStyle (modifierOf props) (widthOptionOf props)
               (colorsOf props) (disabledOf props) state;
             SStyle {[ "height" := Button.ofDimension (Button.buttonContainerHeight st);
                       "width" := Button.ofDimension (Button.buttonContainerWidth st) ]}]).
Proof.
  unfold Button.Button, Button.ContainerWrapper. simpl.
  destruct (String.eqb (widthOptionOf props) "content"); reflexivity.
Qed.

Lemma deliver_sets_floor (props : Props) state evt st :
  deliver props state evt st =
    {| Button.buttonContainerHeight := Some (Qfloor (layout_height evt));
       Button.buttonContainerWidth := Some (Qfloor (layout_width evt)) |}.
Proof.
  unfold Button.deliver, Button.Button, Button.ContainerWrapper. simpl.
  destruct (String.eqb (widthOptionOf props) "content"); reflexivity.
Qed.

Lemma run_app (evts more : list (Props * Button.PressableStateCallbackType
                                 * LayoutChangeEvent)) st :
  run (evts ++ more) st = run more (run evts st).
Proof.
  revert st. induction evts as [|[[props state] evt] rest IH]; intros st; simpl.
  - reflexivity.
  - apply IH.
Qed.

(** C3.  When [buttonColorOverrides] is supplied, the resolved colours are
    the override itself, for every variant and colour scheme and whatever
    the two colour tables hold. *)
Theorem button_color_overrides_win :
  forall (overrides : Button.ButtonColors) (buttonVariant : Button.ButtonVariant)
         (dark light : Button.ButtonVariant -> Button.ButtonColors)
         (scheme : string),
    Button.buttonColors dark light scheme (Some overrides) buttonVariant = overrides.
Proof. intros overrides buttonVariant dark light scheme. reflexivity. Qed.

(** C2, as amended.  When [disabled] is true, whatever the pressed flag: the
    container, the shadow and the text use the disabled colours, each
    falling back to its base colour when unset, and the container and the
    shadow use [opacityDisabled] as it is, unset when it is unset (the text
    bundle has no opacity).  The pressed colours and [opacityPressed] are
    used only when [disabled] is false and the button is pressed; otherwise
    the base values are. *)
Theorem disabled_precedes_pressed :
  forall modifier widthOption (colors : Button.ButtonColors) body state pressed,
    buttonContainerStyle modifier widthOption colors true body state =
      containerBundle modifier widthOption body
        (nullish (Button.containerBackgroundDisabled colors)
           (Button.containerBackground colors))
        (nullish (Button.containerBorderDisabled colors)
           (Button.containerBorder colors))
        (Button.opacityDisabled colors)
    /\ buttonShadowStyle modifier widthOption colors true state =
         shadowBundle modifier widthOption
           (nullish (Button.shadowDisabled colors) (Button.shadow colors))
           (Button.opacityDisabled colors)
    /\ buttonTextStyle modifier colors true pressed =
         textBundle modifier
           (nullish (Button.disabledText colors) (Button.text colors))
    /\ buttonContainerStyle modifier widthOption colors false body
         {| Button.pressed := true |} =
         containerBundle modifier widthOption body
           (nullish (Button.containerBackgroundPressed colors)
              (Button.containerBackground colors))
           (nullish (Button.containerBorderPressed colors)
              (Button.containerBorder colors))
           (Button.opacityPressed colors)
    /\ buttonShadowStyle modifier widthOption colors false
         {| Button.pressed := true |} =
         shadowBundle modifier widthOption
           (nullish (Button.shadowPressed colors) (Button.shadow colors))
           (Button.opacityPressed colors)
    /\ buttonTextStyle modifier colors false true =
         textBundle modifier
           (nullish (Button.pressedText colors) (Button.text colors))
    /\ buttonContainerStyle modifier widthOption colors false body
         {| Button.pressed := false |} =
         containerBundle modifier widthOption body
           (Button.containerBackground colors) (Button.containerBorder colors)
           (Button.opacity colors)
    /\ buttonShadowStyle modifier widthOption colors false
         {| Button.pressed := false |} =
         shadowBundle modifier widthOption (Button.shadow colors)
           (Button.opacity colors)
    /\ buttonTextStyle modifier colors false false =
         textBundle modifier (Button.text colors).
Proof.
  intros modifier widthOption colors body state pressed.
  rewrite !buttonContainerStyle_resolved, !buttonShadowStyle_resolved,
    !buttonTextStyle_resolved.
  repeat split; reflexivity.
Qed.

(** C7.  When the shadow colour resolved for the interaction state is unset,
    the shadow style is the "no shadow" sentinel, of height and width 0 and
    transparent; the shadow layer is rendered all the same, with that
    style. *)
Theorem unset_shadow_color_gives_no_shadow :
  forall modifier widthOption (colors : Button.ButtonColors) disabled state,
    resolvedShadowColor colors disabled (Button.pressed state) = None ->
    buttonShadowStyle modifier widthOption colors disabled state =
      SStyle Button.noShadow
    /\ Button.noShadow !! "height" = Some (VNumber 0%Q)
    /\ Button.noShadow !! "width" = Some (VNumber 0%Q)
    /\ Button.noShadow !! "backgroundColor" = Some (VString "transparent")
    /\ (forall (props : Props) st,
          modifierOf props = modifier -> widthOptionOf props = widthOption ->
          colorsOf props = colors -> disabledOf props = disabled ->
          Button.shadowLayerStyle
            (Button.pressable_children (render props st) state) =
            Some (SArray
                    [SStyle Button.noShadow;
                     SStyle {[ "height" :=
                                 Button.ofDimension (Button.buttonContainerHeight st);
                               "width" :=
                                 Button.ofDimension (Button.buttonContainerWidth st) ]}])).
Proof.
  intros modifier widthOption colors disabled state Hunset.
  assert (Hstyle : buttonShadowStyle modifier widthOption colors disabled state =
                     SStyle Button.noShadow).
  { rewrite buttonShadowStyle_resolved, Hunset. reflexivity. }
  split; [exact Hstyle|].
  repeat (split; [reflexivity|]).
  intros props st <- <- <- <-. rewrite shadow_layer_rendered.
  rewrite Hstyle. reflexivity.
Qed.

(** C8.  When the border colour resolved for the interaction state is unset,
    the container bundle carries [{ borderWidth: 0 }], pushed right after
    the colour entry and before the caller's overrides. *)
Theorem unset_border_color_gives_zero_border_width :
  forall modifier widthOption (colors : Button.ButtonColors) disabled body state,
    resolvedBorderColor colors disabled (Button.pressed state) = None ->
    buttonContainerStyle modifier widthOption colors disabled body state =
      SArray
        [SStyle (Button.buttonContainer baseButtonStyle);
         SStyle (Button.size (buttonModifierStyle modifier));
         SStyle (Button.width (buttonWidthOptionStyle widthOption));
         SStyle {[ "backgroundColor" :=
                     ofString
                       (resolvedColor disabled (Button.pressed state)
                          (Button.containerBackground colors)
                          (Button.containerBackgroundPressed colors)
                          (Button.containerBackgroundDisabled colors));
                   "borderColor" := VUndefined;
                   "opacity" :=
                     ofNumber (resolvedOpacity disabled (Button.pressed state) colors) ]};
         SStyle {[ "borderWidth" := VNumber 0%Q ]};
         SStyle body].
Proof.
  intros modifier widthOption colors disabled body state Hunset.
  rewrite buttonContainerStyle_resolved, Hunset. reflexivity.
Qed.

(** C9.  Every icon the button renders gets the width and the height 20 when
    [modifier] is "small" and 24 otherwise (also when [modifier] is left
    out); one icon is rendered when [iconSource] is set and [iconPosition]
    is "left" or "right", none otherwise. *)
Theorem icon_size_by_modifier :
  forall (props : Props) st state,
    let iconSize :=
      if bool_decide (Button.modifier props = Some "small") then 20 else 24 in
    Button.iconSize (modifierOf props) = iconSize
    /\ Forall (fun size => size = (iconSize, iconSize))
         (Button.svgImageSizes (Button.pressable_children (render props st) state))
    /\ Button.svgImageSizes (Button.pressable_children (render props st) state) =
         if truthyString (Button.iconSource props)
            && (String.eqb (default "right" (Button.iconPosition props)) "left"
                || String.eqb (default "right" (Button.iconPosition props)) "right")
         then [(iconSize, iconSize)]
         else [].
Proof.
  intros props st state iconSize.
  assert (Hsize : Button.iconSize (modifierOf props) = iconSize).
  { subst iconSize. unfold Button.iconSize.
    destruct (decide (Button.modifier props = Some "small")) as [Heq|Hne].
    - rewrite bool_decide_eq_true_2 by exact Heq. now rewrite Heq.
    - rewrite bool_decide_eq_false_2 by exact Hne.
      destruct (Button.modifier props) as [m|]; [|reflexivity].
      cbn [default from_option id].
      destruct (String.eqb_spec m "small") as [->|Hm]; [now destruct Hne|reflexivity]. }
  assert (Hlist :
    Button.svgImageSizes (Button.pressable_children (render props st) state) =
      if truthyString (Button.iconSource props)
         && (String.eqb (default "right" (Button.iconPosition props)) "left"
             || String.eqb (default "right" (Button.iconPosition props)) "right")
      then [(iconSize, iconSize)]
      else []).
  { rewrite <- Hsize. unfold Button.Button, Button.ContainerWrapper. simpl.
    destruct (String.eqb (widthOptionOf props) "content"); simpl;
      (destruct (Button.iconSource props) as [source|]; simpl; [|reflexivity]);
      (destruct (String.eqb source EmptyString); simpl; [reflexivity|]);
      (destruct (String.eqb_spec (default "right" (Button.iconPosition props)) "left")
         as [Hleft|Hleft]; simpl;
       [ rewrite Hleft; reflexivity
       | destruct (String.eqb (default "right" (Button.iconPosition props)) "right");
         reflexivity ]). }
  split; [exact Hsize | split; [|exact Hlist]].
  rewrite Hlist.
  destruct (truthyString (Button.iconSource props)
            && (String.eqb (default "right" (Button.iconPosition props)) "left"
                || String.eqb (default "right" (Button.iconPosition props)) "right"));
    repeat constructor.
Qed.

(** C5, as amended.  The measured layout starts unmeasured.  Every layout
    event of the container, not only the first, sets it to the height and
    the width of that event rounded down; it is never unmeasured again.  The
    shadow layer of the next render carries the two cells as its [height]
    and [width]. *)
Theorem layout_sets_floor_of_last_event :
  forall (evts : list (Props * Button.PressableStateCallbackType
                       * LayoutChangeEvent))
         (props : Props) state evt,
    Button.initialState =
      {| Button.buttonContainerHeight := None;
         Button.buttonContainerWidth := None |}
    /\ run (evts ++ [(props, state, evt)]) Button.initialState =
         {| Button.buttonContainerHeight := Some (Qfloor (layout_height evt));
            Button.buttonContainerWidth := Some (Qfloor (layout_width evt)) |}
    /\ (forall (props' : Props) state',
          Button.shadowLayerStyle
            (Button.pressable_children
               (render props' (run (evts ++ [(props, state, evt)]) Button.initialState))
               state') =
            Some (SArray
                    [buttonShadowStyle (modifierOf props') (widthOptionOf props')
                       (colorsOf props') (disabledOf props') state';
                     SStyle {[ "height" :=
                                 VNumber (inject_Z (Qfloor (layout_height evt)));
                               "width" :=
                                 VNumber (inject_Z (Qfloor (layout_width evt))) ]}])).
Proof.
  intros evts props state evt.
  assert (Hrun : run (evts ++ [(props, state, evt)]) Button.initialState =
                   {| Button.buttonContainerHeight := Some (Qfloor (layout_height evt));
                      Button.buttonContainerWidth := Some (Qfloor (layout_width evt)) |}).
  { rewrite run_app. simpl. apply deliver_sets_floor. }
  split; [reflexivity | split; [exact Hrun|]].
  intros props' state'. rewrite shadow_layer_rendered, Hrun. reflexivity.
Qed.

(** The label, as the render builds it. *)
Local Abbreviation labelOf props st state :=
  (Button.LeafText
     (addTestIdModifier (default (Button.i18nKey _ _ props) (Button.testID _ _ props))
        "text")
     (buttonTextStyle (modifierOf props) (colorsOf props) (disabledOf props)
        (Button.pressed state))
     (Button.pressable_accessibilityLabel _ (render props st))).

Lemma leaves_rendered (props : Props) st state :
  Button.leaves (Button.pressable_children (render props st) state) =
    match Button.iconSource props with
    | Some source =>
        if String.eqb source EmptyString then [labelOf props st state]
        else if String.eqb (default "right" (Button.iconPosition props)) "left"
        then [Button.LeafIcon source (Button.iconSize (modifierOf props))
                (Button.iconSize (modifierOf props)) SUndefined;
              labelOf props st state]
        else if String.eqb (default "right" (Button.iconPosition props)) "right"
        then [labelOf props st state;
              Button.LeafIcon source (Button.iconSize (modifierOf props))
                (Button.iconSize (modifierOf props))
                (SArray [if disabledOf props
                         then SStyle (Button.buttonIconDisabled baseButtonStyle)
                         else SUndefined])]
        else [labelOf props st state]
    | None => [labelOf props st state]
    end.
Proof.
  unfold Button.Button, Button.ContainerWrapper. simpl.
  destruct (String.eqb (widthOptionOf props) "content"); simpl;
    (destruct (Button.iconSource props) as [source|]; simpl; [|reflexivity]);
    (destruct (String.eqb source EmptyString); simpl; [reflexivity|]);
    (destruct (String.eqb_spec (default "right" (Button.iconPosition props)) "left")
       as [Hleft|Hleft]; simpl;
     [ rewrite Hleft; reflexivity
     | destruct (String.eqb (default "right" (Button.iconPosition props)) "right");
       reflexivity ]).
Qed.

(** X7.  An icon on the left comes before the label and never carries a
    style, disabled or not; an icon on the right (the default) comes after
    the label and carries the disabled icon style exactly when the button is
    disabled. *)
Theorem icon_sits_on_its_side :
  forall (props : Props) st state source,
    Button.iconSource props = Some source ->
    source <> EmptyString ->
    let icon := Button.LeafIcon source (Button.iconSize (modifierOf props))
                  (Button.iconSize (modifierOf props)) in
    (Button.iconPosition props = Some "left" ->
       Button.leaves (Button.pressable_children (render props st) state) =
         [icon SUndefined; labelOf props st state])
    /\ (Button.iconPosition props = None \/ Button.iconPosition props = Some "right" ->
          Button.leaves (Button.pressable_children (render props st) state) =
            [labelOf props st state;
             icon (SArray [if disabledOf props
                           then SStyle (Button.buttonIconDisabled baseButtonStyle)
                           else SUndefined])]).
Proof.
  intros props st state source Hsource Hne icon. subst icon.
  rewrite leaves_rendered, Hsource.
  apply String.eqb_neq in Hne. rewrite Hne.
  split.
  - intros Hpos. now rewrite Hpos.
  - intros [Hpos|Hpos]; now rewrite Hpos.
Qed.


(** X9.  The caller's body overrides are the last entry of the container
    style in every state, after the border width reset; before them stand
    five entries when the resolved border colour is unset and four when it
    is set. *)
Theorem body_overrides_come_last :
  forall modifier widthOption (colors : Button.ButtonColors) disabled body state,
    exists front,
      buttonContainerStyle modifier widthOption colors disabled body state =
        SArray (front ++ [SStyle body])
      /\ length front =
           match resolvedBorderColor colors disabled (Button.pressed state) with
           | None => 5%nat
           | Some _ => 4%nat
           end.
Proof.
  intros modifier widthOption colors disabled body state.
  rewrite buttonContainerStyle_resolved. unfold Button.containerBundle.
  destruct (resolvedBorderColor colors disabled (Button.pressed state));
    eexists; split; try reflexivity; rewrite ?app_assoc; reflexivity.
Qed.

(** X10.  When the border colour resolved for the interaction state is set,
    the container style carries it and no border width of the button's
    own. *)
Theorem set_border_color_keeps_border_width :
  forall modifier widthOption (colors : Button.ButtonColors) disabled body state
         border,
    resolvedBorderColor colors disabled (Button.pressed state) = Some border ->
    buttonContainerStyle modifier widthOption colors disabled body state =
      SArray
        [SStyle (Button.buttonContainer baseButtonStyle);
         SStyle (Button.size (buttonModifierStyle modifier));
         SStyle (Button.width (buttonWidthOptionStyle widthOption));
         SStyle {[ "backgroundColor" :=
                     ofString
                       (resolvedColor disabled (Button.pressed state)
                          (Button.containerBackground colors)
                          (Button.containerBackgroundPressed colors)
                          (Button.containerBackgroundDisabled colors));
                   "borderColor" := VString border;
                   "opacity" :=
                     ofNumber (resolvedOpacity disabled (Button.pressed state) colors) ]};
         SStyle body].
Proof.
  intros modifier widthOption colors disabled body state border Hset.
  rewrite buttonContainerStyle_resolved, Hset. reflexivity.
Qed.

(** X11.  The text style keeps every key of the modifier's text entry other
    than [fontWeight]; [fontWeight] is always present, with the entry's own
    weight, or its bolder counterpart when bold text is enabled; and with
    bold text off an entry that has a weight is handed on unchanged. *)
Theorem text_style_keeps_table_entries :
  forall modifier (colors : Button.ButtonColors) disabled pressed,
    let entry := Button.modifier_text (buttonModifierStyle modifier) in
    exists weighted,
      buttonTextStyle modifier colors disabled pressed =
        SArray
          [SStyle weighted;
           SStyle {[ "color" :=
                       ofString
                         (resolvedColor disabled pressed (Button.text colors)
                            (Button.pressedText colors)
                            (Button.disabledText colors)) ]}]
      /\ (forall k, k <> "fontWeight" -> weighted !! k = entry !! k)
      /\ weighted !! "fontWeight" =
           Some (if isBoldTextEnabled
                 then transformToBolderFontWeight (get entry "fontWeight")
                 else get entry "fontWeight")
      /\ (isBoldTextEnabled = false -> is_Some (entry !! "fontWeight") ->
          weighted = entry).
Proof.
  intros modifier colors disabled pressed entry.
  rewrite buttonTextStyle_resolved. unfold Button.textBundle. fold entry.
  eexists. split; [reflexivity|]. split; [|split].
  - intros k Hk. now rewrite lookup_insert_ne.
  - apply lookup_insert_eq.
  - intros -> [weight Hweight]. apply insert_id.
    unfold get. now rewrite Hweight.
Qed.

(** X12.  A layout event stores whole numbers: the stored height [h]
    satisfies [h <= height < h + 1], and likewise the width, whatever the
    state held before; a measurement that is a whole number is stored as it
    is. *)
Theorem measured_size_is_floor :
  forall (props : Props) state evt st,
    (exists h w,
       deliver props state evt st =
         {| Button.buttonContainerHeight := Some h;
            Button.buttonContainerWidth := Some w |}
       /\ (inject_Z h <= layout_height evt)%Q
       /\ (layout_height evt < inject_Z (h + 1))%Q
       /\ (inject_Z w <= layout_width evt)%Q
       /\ (layout_width evt < inject_Z (w + 1))%Q)
    /\ (forall h w : Z,
          deliver props state
            {| layout_height := inject_Z h; layout_width := inject_Z w |} st =
            {| Button.buttonContainerHeight := Some h;
               Button.buttonContainerWidth := Some w |}).
Proof.
  intros props state evt st. split.
  - exists (Qfloor (layout_height evt)), (Qfloor (layout_width evt)).
    split; [apply deliver_sets_floor|].
    repeat split; first [apply Qfloor_le | apply Qlt_floor].
  - intros h w. rewrite deliver_sets_floor. cbn [layout_height layout_width].
    now rewrite !Qfloor_Z.
Qed.

(** X13.  Without an override the colours come from the dark table under
    the scheme "dark" and from the light table under every other scheme. *)
Theorem scheme_selects_table :
  forall (buttonVariant : Button.ButtonVariant),
    (colorScheme = "dark" ->
       buttonColors None buttonVariant = darkButtonColorMappings buttonVariant)
    /\ (colorScheme <> "dark" ->
          buttonColors None buttonVariant = lightButtonColorMappings buttonVariant).
Proof.
  intros buttonVariant. unfold Button.buttonColors.
  destruct (String.eqb_spec colorScheme "dark") as [Hdark|Hlight]; split;
    intros H; try reflexivity; contradiction.
Qed.

(** X14.  The button is wrapped in a plain [View] exactly when [widthOption]
    is "content" and in a fragment otherwise; either way the wrapper holds
    the shadow layer and the container, and the container carries the layout
    handler. *)
Theorem wrapper_by_width_option :
  forall (props : Props) st state,
    match Button.pressable_children (render props st) state with
    | Button.View style handler layers =>
        Button.widthOption props = Some "content"
        /\ style = SUndefined /\ handler = None /\ length layers = 2%nat
    | Button.Fragment layers =>
        Button.widthOption props <> Some "content" /\ length layers = 2%nat
    | _ => False
    end
    /\ Button.containerOnLayout (Button.pressable_children (render props st) state) =
         Some Button.onLayoutButtonContainer.
Proof.
  intros props st state. unfold Button.Button, Button.ContainerWrapper. simpl.
  destruct (Button.widthOption props) as [option|]; simpl.
  - destruct (String.eqb_spec option "content") as [->|Hne]; simpl;
      repeat split; congruence.
  - repeat split; congruence.
Qed.

(** X15.  When a shadow colour is resolved, the shadow is built like its
    container: the same size and width entries of the tables, and the same
    opacity, unset when the container's is unset. *)
Theorem shadow_matches_container :
  forall modifier widthOption (colors : Button.ButtonColors) disabled body state
         shadowColor,
    resolvedShadowColor colors disabled (Button.pressed state) = Some shadowColor ->
    exists colorEntry shadowEntry rest,
      buttonContainerStyle modifier widthOption colors disabled body state =
        SArray
          (SStyle (Button.buttonContainer baseButtonStyle)
           :: SStyle (Button.size (buttonModifierStyle modifier))
           :: SStyle (Button.width (buttonWidthOptionStyle widthOption))
           :: SStyle colorEntry :: rest)
      /\ buttonShadowStyle modifier widthOption colors disabled state =
           SArray
             [SStyle shadow_style;
              SStyle shadowEntry;
              SStyle (Button.size (buttonModifierStyle modifier));
              SStyle (Button.width (buttonWidthOptionStyle widthOption))]
      /\ shadowEntry !! "backgroundColor" = Some (VString shadowColor)
      /\ shadowEntry !! "opacity" = colorEntry !! "opacity".
Proof.
  intros modifier widthOption colors disabled body state shadowColor Hshadow.
  rewrite buttonContainerStyle_resolved, buttonShadowStyle_resolved, Hshadow.
  unfold Button.containerBundle, Button.shadowBundle.
  do 3 eexists. split; [reflexivity|]. split; [reflexivity|]. split.
  - apply lookup_insert_eq.
  - rewrite lookup_insert_ne by discriminate. rewrite lookup_singleton_eq.
    rewrite !lookup_insert_ne by discriminate. now rewrite lookup_singleton_eq.
Qed.

(** X16.  For a button that is not disabled, when none of the pressed
    colours is set and [opacityPressed] equals [opacity], pressing changes
    none of the three styles.  (The opacity has no fallback: the condition
    on [opacityPressed] is needed.) *)
Theorem unset_pressed_variants_change_nothing :
  forall modifier widthOption (colors : Button.ButtonColors) body,
    Button.containerBackgroundPressed colors = None ->
    Button.containerBorderPressed colors = None ->
    Button.shadowPressed colors = None ->
    Button.pressedText colors = None ->
    Button.opacityPressed colors = Button.opacity colors ->
    buttonContainerStyle modifier widthOption colors false body
      {| Button.pressed := true |} =
      buttonContainerStyle modifier widthOption colors false body
        {| Button.pressed := false |}
    /\ buttonShadowStyle modifier widthOption colors false
         {| Button.pressed := true |} =
         buttonShadowStyle modifier widthOption colors false
           {| Button.pressed := false |}
    /\ buttonTextStyle modifier colors false true =
         buttonTextStyle modifier colors false false.
Proof.
  intros modifier widthOption colors body Hbg Hborder Hshadow Htext Hopacity.
  rewrite !buttonContainerStyle_resolved, !buttonShadowStyle_resolved,
    !buttonTextStyle_resolved.
  unfold Button.resolvedBorderColor, Button.resolvedShadowColor,
    Button.resolvedColor, Button.resolvedOpacity. simpl.
  rewrite Hbg, Hborder, Hshadow, Htext, Hopacity. repeat split; reflexivity.
Qed.

End ButtonSpec.

Local Abbreviation sampleContainerStyle :=
  (Button.buttonContainerStyle Button.sampleModifierStyle Button.sampleBaseStyle
     Button.sampleWidthStyle).
Local Abbreviation sampleShadowStyle :=
  (Button.buttonShadowStyle Button.sampleModifierStyle ∅ Button.sampleWidthStyle).

(** C2, as stated, fails for the opacity: with a base opacity of 0.5 and no
    disabled opacity, the disabled button gets no opacity at all in its
    container and its shadow, not the base value. *)
Lemma disabled_opacity_does_not_fall_back :
  let colors := Button.halfOpaque in
  let colorEntry : gmap string value :=
    {[ "backgroundColor" := VString "#fff";
       "borderColor" := VString "#000";
       "opacity" := VUndefined ]} in
  let shadowEntry : gmap string value :=
    {[ "backgroundColor" := VString "#888"; "opacity" := VUndefined ]} in
  nullish (Button.opacityDisabled colors) (Button.opacity colors) = Some (1 # 2)%Q
  /\ sampleContainerStyle "default" "stretch" colors true ∅
       {| Button.pressed := false |} =
       SArray [SStyle ∅; SStyle ∅; SStyle ∅; SStyle colorEntry; SStyle ∅]
  /\ sampleShadowStyle "default" "stretch" colors true
       {| Button.pressed := false |} =
       SArray [SStyle ∅; SStyle shadowEntry; SStyle ∅; SStyle ∅]
  /\ colorEntry !! "opacity" = Some VUndefined
  /\ shadowEntry !! "opacity" = Some VUndefined
  /\ Some VUndefined <>
       Some (ofNumber (nullish (Button.opacityDisabled colors) (Button.opacity colors))).
Proof.
  cbv zeta. repeat split; try reflexivity. discriminate.
Qed.

(** C5, as stated, fails twice: a container measured at 40.5 by 100 gives a
    shadow of height 40, and a second layout event sets the state again. *)
Lemma shadow_size_is_rounded_and_set_again :
  let first := {| layout_height := (81 # 2)%Q; layout_width := 100%Q |} in
  let second := {| layout_height := 50%Q; layout_width := 100%Q |} in
  let state := {| Button.pressed := false |} in
  let measured :=
    Button.sampleRun [(Button.sampleProps, state, first)] Button.initialState in
  measured =
    {| Button.buttonContainerHeight := Some 40;
       Button.buttonContainerWidth := Some 100 |}
  /\ ~ (inject_Z 40 == layout_height first)%Q
  /\ Button.shadowLayerStyle
       (Button.pressable_children
          (Button.sampleButton Button.sampleProps measured) state) =
       Some (SArray
               [SStyle Button.noShadow;
                SStyle {[ "height" := VNumber (inject_Z 40);
                          "width" := VNumber (inject_Z 100) ]}])
  /\ Button.sampleRun
       [(Button.sampleProps, state, first); (Button.sampleProps, state, second)]
       Button.initialState =
       {| Button.buttonContainerHeight := Some 50;
          Button.buttonContainerWidth := Some 100 |}
  /\ Button.sampleRun
       [(Button.sampleProps, state, first); (Button.sampleProps, state, second)]
       Button.initialState <> measured.
Proof.
  cbv zeta. repeat split; try reflexivity.
  - intros Heq. vm_compute in Heq. discriminate Heq.
  - discriminate.
Qed.

Lemma unset_shadow_color_gives_no_shadow_witness :
  Button.resolvedShadowColor Button.noColors false false = None
  /\ sampleShadowStyle "default" "stretch" Button.noColors false
       {| Button.pressed := false |} = SStyle Button.noShadow
  /\ Button.shadowLayerStyle
       (Button.pressable_children
          (Button.sampleButton Button.sampleProps Button.initialState)
          {| Button.pressed := false |}) =
       Some (SArray
               [SStyle Button.noShadow;
                SStyle {[ "height" := VUndefined; "width" := VUndefined ]}]).
Proof.
  destruct (unset_shadow_color_gives_no_shadow (I18nParams := unit)
              (OnPress := unit) Button.sampleModifierStyle Button.sampleBaseStyle
              ∅ Button.sampleWidthStyle (fun _ => Button.noColors)
              (fun _ => Button.noColors) (fun weight => weight)
              (fun key _ => key) "light" false
              (fun id suffix => id ++ "." ++ suffix)
              "default" "stretch" Button.noColors false
              {| Button.pressed := false |} eq_refl)
    as (Hstyle & _ & _ & _ & Hlayer).
  split; [reflexivity | split; [exact Hstyle|]].
  apply (Hlayer Button.sampleProps Button.initialState); reflexivity.
Defined.

Lemma unset_border_color_gives_zero_border_width_witness :
  Button.resolvedBorderColor Button.noColors true false = None
  /\ sampleContainerStyle "small" "content" Button.noColors true ∅
       {| Button.pressed := false |} =
       SArray
         [SStyle ∅; SStyle ∅; SStyle ∅;
          SStyle {[ "backgroundColor" := VUndefined;
                    "borderColor" := VUndefined;
                    "opacity" := VUndefined ]};
          SStyle {[ "borderWidth" := VNumber 0%Q ]};
          SStyle ∅].
Proof.
  split; [reflexivity|].
  apply (unset_border_color_gives_zero_border_width Button.sampleModifierStyle
           Button.sampleBaseStyle Button.sampleWidthStyle "small" "content"
           Button.noColors true ∅ {| Button.pressed := false |}).
  reflexivity.
Defined.

Local Abbreviation sampleTextStyle :=
  (Button.buttonTextStyle Button.sampleModifierStyle (fun weight => weight) false).

Lemma icon_sits_on_its_side_witness :
  Button.iconSource Button.iconLeftProps = Some "arrow"
  /\ Button.iconPosition Button.iconLeftProps = Some "left"
  /\ Button.leaves
       (Button.pressable_children
          (Button.sampleButton Button.iconLeftProps Button.initialState)
          {| Button.pressed := false |}) =
       [Button.LeafIcon "arrow" 20 20 SUndefined;
        Button.LeafText "saveButton.text"
          (sampleTextStyle "small" Button.halfOpaque true false) "save"].
Proof.
  destruct (icon_sits_on_its_side (I18nParams := unit) (OnPress := unit)
              Button.sampleModifierStyle Button.sampleBaseStyle ∅
              Button.sampleWidthStyle (fun _ => Button.noColors)
              (fun _ => Button.noColors) (fun weight => weight)
              (fun key _ => key) "light" false
              (fun id suffix => id ++ "." ++ suffix)
              Button.iconLeftProps Button.initialState
              {| Button.pressed := false |} "arrow" eq_refl
              ltac:(discriminate))
    as [Hleft _].
  split; [reflexivity | split; [reflexivity|]].
  exact (Hleft eq_refl).
Defined.

Lemma set_border_color_keeps_border_width_witness :
  Button.resolvedBorderColor Button.halfOpaque false false = Some "#000"
  /\ sampleContainerStyle "default" "stretch" Button.halfOpaque false ∅
       {| Button.pressed := false |} =
       SArray
         [SStyle ∅; SStyle ∅; SStyle ∅;
          SStyle {[ "backgroundColor" := VString "#fff";
                    "borderColor" := VString "#000";
                    "opacity" := VNumber (1 # 2)%Q ]};
          SStyle ∅].
Proof.
  split; [reflexivity|].
  apply (set_border_color_keeps_border_width Button.sampleModifierStyle
           Button.sampleBaseStyle Button.sampleWidthStyle "default" "stretch"
           Button.halfOpaque false ∅ {| Button.pressed := false |} "#000").
  reflexivity.
Defined.

Lemma shadow_matches_container_witness :
  Button.resolvedShadowColor Button.halfOpaque false false = Some "#888"
  /\ exists colorEntry shadowEntry rest,
       sampleContainerStyle "default" "stretch" Button.halfOpaque false ∅
         {| Button.pressed := false |} =
         SArray (SStyle ∅ :: SStyle ∅ :: SStyle ∅ :: SStyle colorEntry :: rest)
       /\ sampleShadowStyle "default" "stretch" Button.halfOpaque false
            {| Button.pressed := false |} =
            SArray [SStyle ∅; SStyle shadowEntry; SStyle ∅; SStyle ∅]
       /\ shadowEntry !! "backgroundColor" = Some (VString "#888")
       /\ shadowEntry !! "opacity" = colorEntry !! "opacity".
Proof.
  split; [reflexivity|].
  apply (shadow_matches_container Button.sampleModifierStyle
           Button.sampleBaseStyle ∅ Button.sampleWidthStyle "default" "stretch"
           Button.halfOpaque false ∅ {| Button.pressed := false |} "#888").
  reflexivity.
Defined.

Lemma unset_pressed_variants_change_nothing_witness :
  Button.containerBackgroundPressed Button.solidColors = None
  /\ Button.containerBorderPressed Button.solidColors = None
  /\ Button.shadowPressed Button.solidColors = None
  /\ Button.pressedText Button.solidColors = None
  /\ Button.opacityPressed Button.solidColors = Button.opacity Button.solidColors
  /\ sampleContainerStyle "default" "stretch" Button.solidColors false ∅
       {| Button.pressed := true |} =
       sampleContainerStyle "default" "stretch" Button.solidColors false ∅
         {| Button.pressed := false |}
  /\ sampleShadowStyle "default" "stretch" Button.solidColors false
       {| Button.pressed := true |} =
       sampleShadowStyle "default" "stretch" Button.solidColors false
         {| Button.pressed := false |}
  /\ sampleTextStyle "default" Button.solidColors false true =
       sampleTextStyle "default" Button.solidColors false false.
Proof.
  do 5 (split; [reflexivity|]).
  apply (unset_pressed_variants_change_nothing Button.sampleModifierStyle
           Button.sampleBaseStyle ∅ Button.sampleWidthStyle (fun weight => weight)
           false "default" "stretch" Button.solidColors ∅);
    reflexivity.
Defined.

End ButtonSpec.
